(** * Xavier bridge: a shallow embedding of [.xavier/xavier_bridge.py]

    The script reads a command name and an optional JSON payload from
    [sys.argv], maps the command name to a slash command, hands both to the
    [XavierCommands] collaborator and prints what comes back.

    The embedding follows the function [main] statement by statement, and
    the module body around it.  Python strings are [string]s (their UTF-8
    bytes), Python exceptions are an error monad over a world that records
    each [print] call and each call made on the collaborator; [print] itself
    is taken to succeed.  What the script takes from outside the file
    ([json.loads], [json.dumps], [repr], [os.getcwd] and the [XavierCommands]
    class) is an interface the development is parametric in. *)

From Stdlib Require Import ZArith Floats Ascii String.
From stdpp Require Import gmap strings list pretty.

Open Scope string_scope.
Set Warnings "-register-all".

(** ** Python values *)

Module Py.

(** The values [json.loads] produces, which are also the values the
    result mapping of the collaborator is made of.  A [dict] keeps its
    insertion order, which [json.dumps] prints. *)
Inductive value : Type :=
| VNone
| VBool (b : bool)
| VInt (n : Z)
| VFloat (f : float)
| VStr (s : string)
| VList (l : list value)
| VDict (d : list (string * value)).

(** [type(v).__name__] *)
Definition type_name (v : value) : string :=
  match v with
  | VNone => "NoneType"
  | VBool _ => "bool"
  | VInt _ => "int"
  | VFloat _ => "float"
  | VStr _ => "str"
  | VList _ => "list"
  | VDict _ => "dict"
  end.

(** [bool(v)], the test an [if v:] makes *)
Definition truthy (v : value) : bool :=
  match v with
  | VNone => false
  | VBool b => b
  | VInt n => negb (n =? 0)%Z
  | VFloat f => negb (PrimFloat.eqb f PrimFloat.zero)
  | VStr s => negb (String.eqb s "")
  | VList l => match l with [] => false | _ :: _ => true end
  | VDict d => match d with [] => false | _ :: _ => true end
  end.

Definition is_dict (v : value) : bool :=
  match v with VDict _ => true | _ => false end.

(** [d.get(key)] on the items of a dict: [None] when the key is absent *)
Fixpoint dict_lookup (d : list (string * value)) (key : string) : option value :=
  match d with
  | [] => None
  | (k, v) :: d' => if String.eqb k key then Some v else dict_lookup d' key
  end.

(** Exceptions.  [except Exception] catches the instances of [Exception]
    and lets pass what derives from [BaseException] only: [SystemExit],
    [KeyboardInterrupt], [GeneratorExit] and the classes a program derives
    from [BaseException] itself; a bare [except:] catches them all.  [msg]
    is [str(e)].  A [SystemExit] carries its code: an int, [None], or any
    other object, of which the interpreter only uses the [str]. *)
Inductive exn : Type :=
| PyException (cls : string) (msg : string)
| SystemExit (code : Z)
| SystemExitNone
| SystemExitObject (msg : string)
| KeyboardInterrupt (msg : string)
| OtherBaseException (cls : string) (msg : string).

Definition is_Exception (e : exn) : bool :=
  match e with PyException _ _ => true | _ => false end.

Inductive outcome (A : Type) : Type :=
| Ret (a : A)
| Raise (e : exn).
Arguments Ret {A} a.
Arguments Raise {A} e.

(** [s.replace(c, '')] for a one-character [c]: every occurrence goes *)
Fixpoint str_remove (c : ascii) (s : string) : string :=
  match s with
  | EmptyString => EmptyString
  | String a s' =>
      if Ascii.eqb a c then str_remove c s' else String a (str_remove c s')
  end.

(** [s.lstrip(c)] for a one-character [c]: the leading occurrences go *)
Fixpoint str_lstrip (c : ascii) (s : string) : string :=
  match s with
  | EmptyString => EmptyString
  | String a s' => if Ascii.eqb a c then str_lstrip c s' else s
  end.

(** [c in s] *)
Fixpoint str_mem (c : ascii) (s : string) : bool :=
  match s with
  | EmptyString => false
  | String a s' => Ascii.eqb a c || str_mem c s'
  end.

End Py.
Export Py.

(** ** The world the script acts on *)

(** A call made on the collaborator. *)
Inductive event : Type :=
| Construct (cwd : string)
| Execute (command : string) (args : value).

(** [stdout] holds one entry per [print] call, oldest first; [calls] the
    calls made on the collaborator, oldest first. *)
Record world : Type := World { stdout : list string; calls : list event }.

Definition world0 : world := World [] [].

Definition M (A : Type) : Type := world -> outcome A * world.

Definition ret {A} (a : A) : M A := fun w => (Ret a, w).

Definition bind {A B} (m : M A) (k : A -> M B) : M B :=
  fun w =>
    match m w with
    | (Ret a, w') => k a w'
    | (Raise e, w') => (Raise e, w')
    end.

Definition throw {A} (e : exn) : M A := fun w => (Raise e, w).

(** A value or exception coming from outside, with no effect on the world *)
Definition lift {A} (o : outcome A) : M A := fun w => (o, w).

(** [try: body / except <classes caught by catches> as e: handler e] *)
Definition try_except {A} (body : M A) (catches : exn -> bool)
    (handler : exn -> M A) : M A :=
  fun w =>
    match body w with
    | (Ret a, w') => (Ret a, w')
    | (Raise e, w') => if catches e then handler e w' else (Raise e, w')
    end.

Definition print (s : string) : M unit :=
  fun w => (Ret tt, World (stdout w ++ [s]) (calls w)).

Definition record (ev : event) : M unit :=
  fun w => (Ret tt, World (stdout w) (calls w ++ [ev])).

(** [sys.exit(code)] *)
Definition sys_exit {A} (code : Z) : M A := throw (SystemExit code).

Declare Scope py_scope.
Delimit Scope py_scope with py.
Notation "x <- m ;; k" := (bind m (fun x => k))
  (at level 100, m at next level, right associativity) : py_scope.
Notation "m ;;; k" := (bind m (fun _ => k))
  (at level 100, right associativity) : py_scope.
Open Scope py_scope.

(** How the process ends. *)
Inductive termination : Type :=
| Exits (code : Z)
| KilledBy (signal : Z).

(** The interpreter converts the int code of a [SystemExit] with
    [PyLong_AsLong]: a code that does not fit a C long (64 bits here) makes
    the conversion fail with -1. *)
Definition fits_c_long (n : Z) : bool := (- 2 ^ 63 <=? n)%Z && (n <? 2 ^ 63)%Z.

(** The end of a process (on a POSIX system) whose main program ended with
    [o].  A normal return exits with 0.  A [SystemExit] exits with the low
    eight bits of its int code, or of -1 when the code does not fit a C
    long; with 0 when the code is [None]; with 1, after the [str] of the
    code went to stderr, when the code is another object.  An uncaught
    [KeyboardInterrupt] makes the interpreter end itself with SIGINT after
    the traceback; any other uncaught exception exits with 1 after the
    traceback. *)
Definition termination_of {A} (o : outcome A) : termination :=
  match o with
  | Ret _ => Exits 0
  | Raise (SystemExit code) =>
      Exits (if fits_c_long code then Z.land code 255 else 255)
  | Raise SystemExitNone => Exits 0
  | Raise (SystemExitObject _) => Exits 1
  | Raise (KeyboardInterrupt _) => KilledBy 2
  | Raise (PyException _ _) => Exits 1
  | Raise (OtherBaseException _ _) => Exits 1
  end.

(** The status the parent of the process sees: the exit code, or 128 plus
    the signal, which is how a shell reports a death by signal. *)
Definition exit_status {A} (o : outcome A) : Z :=
  match termination_of o with
  | Exits code => code
  | KilledBy signal => 128 + signal
  end.

(** ** Alias resolution (lines 31 to 46) *)

Definition command_names : list string :=
  [ "create-project"; "create-story"; "create-task"; "create-bug";
    "create-sprint"; "start-sprint"; "show-backlog"; "xavier-help";
    "xavier-update"; "estimate-story"; "set-story-points" ].

Definition command_items : list (string * string) :=
  [ ("create-project", "/create-project");
    ("create-story", "/create-story");
    ("create-task", "/create-task");
    ("create-bug", "/create-bug");
    ("create-sprint", "/create-sprint");
    ("start-sprint", "/start-sprint");
    ("show-backlog", "/show-backlog");
    ("xavier-help", "/xavier-help");
    ("xavier-update", "/xavier-update");
    ("estimate-story", "/estimate-story");
    ("set-story-points", "/set-story-points") ].

Definition command_map : gmap string string := list_to_map command_items.

(** [command_map.get(command.replace('/', ''), f"/{command}")] *)
Definition xavier_command (command : string) : string :=
  default ("/" +:+ command) (command_map !! str_remove "/"%char command).

(** The resolution as the specification words it: strip the leading slash,
    look the name up, and otherwise put a slash in front of the stripped
    name.  Kept apart from [xavier_command] to compare the two. *)
Definition xavier_command_spec (command : string) : string :=
  let name := str_lstrip "/"%char command in
  default ("/" +:+ name) (command_map !! name).

(** ** What the script uses from outside the file *)

(** An instance of [XavierCommands]: its [execute] method returns a value or
    raises. *)
Record executor : Type := Executor { execute : string -> value -> outcome value }.

(** The interpreter's library and the process environment. *)
Class Runtime : Type := {
  (** [json.loads(text)]: the decoded value, or the exception raised *)
  json_loads : string -> outcome value;
  (** [json.dumps(v, indent=n)] *)
  json_dumps : value -> Z -> outcome string;
  (** [repr(v)], used for the values whose [str] is their [repr]; it
      raises where the interpreter does, as on an int with more digits than
      [sys.get_int_max_str_digits()] allows *)
  py_repr : value -> outcome string;
  (** [os.getcwd()] *)
  os_getcwd : outcome string
}.

(** The class [XavierCommands] of [src/commands/xavier_commands.py], called
    with the working directory. *)
Class Collaborator : Type := {
  XavierCommands : string -> outcome executor
}.

Definition usage_message : string := "Usage: xavier_bridge.py <command> [arguments]".
Definition success_message : string := "✅ Command executed successfully".
Definition error_prefix : string := "❌ Error: ".
Definition unknown_error : string := "Unknown error".

(** [str(e)] *)
Definition exn_str (e : exn) : string :=
  match e with
  | PyException _ msg => msg
  | SystemExit code => pretty code
  | SystemExitNone => ""
  | SystemExitObject msg => msg
  | KeyboardInterrupt msg => msg
  | OtherBaseException _ msg => msg
  end.

Section Bridge.
Context {RT : Runtime} {XC : Collaborator}.

(** What [{v}] in an f-string evaluates to: [str(v)].  The [str] of a
    string is the string; [None] and the booleans have fixed names; the
    [str] of a number, a list or a dict is its [repr], which can raise. *)
Definition py_str (v : value) : outcome string :=
  match v with
  | VStr s => Ret s
  | VNone => Ret "None"
  | VBool true => Ret "True"
  | VBool false => Ret "False"
  | VInt _ | VFloat _ | VList _ | VDict _ => py_repr v
  end.

(** Lines 23 to 29: [args = {}], replaced by the decoded payload when there
    is one and it decodes; the bare [except: pass] swallows every exception. *)
Definition parse_args (argv : list string) : M value :=
  if (2 <? length argv)%nat then
    try_except (lift (json_loads (String.concat " " (drop 2 argv))))
      (fun _ => true) (fun _ => ret (VDict []))
  else ret (VDict []).

(** Lines 52 to 58, on the value [execute] returned.  Only a dict has a
    [get] method; on a dict, [result.get('success')] is [None] for an absent
    key, ['result' in result] is the presence of the key, and
    [result.get('error', 'Unknown error')] the field or the default. *)
Definition report (result : value) : M unit :=
  match result with
  | VDict d =>
      if truthy (default VNone (dict_lookup d "success")) then
        match dict_lookup d "result" with
        | Some r => s <- lift (json_dumps r 2) ;; print s
        | None => print success_message
        end
      else
        msg <- lift (py_str (default (VStr unknown_error)
                               (dict_lookup d "error"))) ;;
        print (error_prefix +:+ msg)
  | _ =>
      throw (PyException "AttributeError"
               ("'" +:+ type_name result +:+ "' object has no attribute 'get'"))
  end.

(** Lines 48 to 60 *)
Definition dispatch (command : string) (args : value) : M unit :=
  try_except
    (cwd <- lift os_getcwd ;;
     record (Construct cwd) ;;;
     xavier <- lift (XavierCommands cwd) ;;
     record (Execute command args) ;;;
     result <- lift (execute xavier command args) ;;
     report result)
    is_Exception
    (fun e => print (error_prefix +:+ exn_str e)).

Definition main (argv : list string) : M unit :=
  if (length argv <? 2)%nat then
    print usage_message ;;; sys_exit 1
  else
    match argv !! 1%nat with
    | Some command =>
        args <- parse_args argv ;;
        dispatch (xavier_command command) args
    | None => throw (PyException "IndexError" "list index out of range")
    end.

(** The value of [args] after line 29. *)
Definition payload (argv : list string) : value :=
  match parse_args argv world0 with
  | (Ret v, _) => v
  | (Raise _, _) => VDict []
  end.

(** The process: [main()] run from a fresh world.  The observable outcome is
    the exit status, what was printed and the calls on the collaborator. *)
Definition run (argv : list string) : outcome unit * world := main argv world0.

Definition status (argv : list string) : Z := exit_status (run argv).1.
Definition output (argv : list string) : list string := stdout (run argv).2.
Definition trace (argv : list string) : list event := calls (run argv).2.

End Bridge.

(** ** The module around [main] (lines 9 to 15 and 62 to 63) *)

(** What [from src.commands.xavier_commands import XavierCommands] does: it
    binds the class, raises an instance of [ImportError] (the one class the
    [except] clause of line 13 names, subclasses included), or raises
    something else. *)
Inductive import_outcome : Type :=
| Imported (XC : Collaborator)
| ImportFails (msg : string)
| ImportRaises (e : exn).

Definition install_message : string :=
  "Error: Xavier Framework not properly installed".

(** The module body, run under the module name [name]: the guarded import,
    then [main()] when the file is the main program. *)
Definition script {RT : Runtime} (imported : import_outcome) (name : string)
    (argv : list string) : M unit :=
  match imported with
  | ImportFails _ => print install_message ;;; sys_exit 1
  | ImportRaises e => throw e
  | Imported XC =>
      if String.eqb name "__main__" then @main RT XC argv else ret tt
  end.

(** An outcome [except Exception] contains: a value or an instance of
    [Exception]. *)
Definition contained {A} (o : outcome A) : bool :=
  match o with
  | Ret _ => true
  | Raise e => is_Exception e
  end.

(** Where an exception [e] that leaves a dispatch was raised: by
    [os.getcwd], by the constructor, by [execute], by [json.dumps] or by the
    [repr] behind an f-string. *)
Definition raise_origin {RT : Runtime} {XC : Collaborator} (command : string)
    (args : value) (e : exn) : Prop :=
  os_getcwd = Raise e \/
  (exists cwd, os_getcwd = Ret cwd /\ XavierCommands cwd = Raise e) \/
  (exists cwd x, os_getcwd = Ret cwd /\ XavierCommands cwd = Ret x /\
     execute x command args = Raise e) \/
  (exists r, json_dumps r 2 = Raise e) \/
  (exists v, py_repr v = Raise e).

(** ** Test doubles

    A runtime and collaborators with scripted behaviour, to run the script
    on concrete command lines. *)

Module Scenario.

Definition decode_error : exn :=
  PyException "JSONDecodeError" "Expecting value: line 1 column 1 (char 0)".

(** [json.loads] on the payloads used below; any other text is rejected the
    way the decoder rejects a text that starts no JSON value. *)
Definition loads (text : string) : outcome value :=
  if String.eqb text "{}" then Ret (VDict [])
  else if String.eqb text "[1, 2]" then Ret (VList [VInt 1; VInt 2])
  else if String.eqb text "42" then Ret (VInt 42)
  else Raise decode_error.

(** The decimal text of an int, which the interpreter refuses to build
    beyond 4300 digits ([sys.get_int_max_str_digits()] as it starts). *)
Definition int_text (n : Z) : outcome string :=
  if (4300 <? String.length (pretty (Z.abs n)))%nat
  then Raise (PyException "ValueError"
                ("Exceeds the limit (4300 digits) for integer string " +:+
                 "conversion; use sys.set_int_max_str_digits() to " +:+
                 "increase the limit"))
  else Ret (pretty n).

(** [json.dumps] on scalars and empty containers, whose rendering does not
    depend on the indentation; the double knows no other value. *)
Definition dumps (v : value) (indent : Z) : outcome string :=
  match v with
  | VNone => Ret "null"
  | VBool true => Ret "true"
  | VBool false => Ret "false"
  | VInt n => int_text n
  | VList [] => Ret "[]"
  | VDict [] => Ret "{}"
  | _ => Raise (PyException "NotImplementedError" "rendering not scripted")
  end.

(** [repr] on the ints of the examples; the double knows no other value. *)
Definition repr (v : value) : outcome string :=
  match v with
  | VInt n => int_text n
  | _ => Raise (PyException "NotImplementedError" "repr not scripted")
  end.

Definition runtime : Runtime :=
  {| json_loads := loads;
     json_dumps := dumps;
     py_repr := repr;
     os_getcwd := Ret "/work" |}.

(** A collaborator whose [execute] returns [result] whatever it is asked. *)
Definition returning (result : value) : Collaborator :=
  {| XavierCommands := fun _ => Ret (Executor (fun _ _ => Ret result)) |}.

(** A collaborator whose [execute] raises [e]. *)
Definition raising (e : exn) : Collaborator :=
  {| XavierCommands := fun _ => Ret (Executor (fun _ _ => Raise e)) |}.

(** A collaborator whose constructor raises [e]. *)
Definition unconstructible (e : exn) : Collaborator :=
  {| XavierCommands := fun _ => Raise e |}.

Definition prog : string := "xavier_bridge.py".

End Scenario.

(** Further doubles: a runtime that has lost its working directory, and one
    whose [json.dumps] refuses the value it is given, as it refuses a value
    outside JSON. *)

Module Faulty.

Definition cwd_error : exn :=
  PyException "FileNotFoundError" "[Errno 2] No such file or directory".

Definition lost_runtime : Runtime :=
  {| json_loads := Scenario.loads;
     json_dumps := Scenario.dumps;
     py_repr := Scenario.repr;
     os_getcwd := Raise cwd_error |}.

Definition dumps_error : exn :=
  PyException "TypeError" "Object of type set is not JSON serializable".

Definition refusing_runtime : Runtime :=
  {| json_loads := Scenario.loads;
     json_dumps := fun _ _ => Raise dumps_error;
     py_repr := Scenario.repr;
     os_getcwd := Ret "/work" |}.

End Faulty.

(** ** The JSON grammar

    What a valid JSON text is (RFC 8259), apart from what [json.loads]
    accepts: a recognizer that follows the grammar rule by rule. *)

Module Json.

Inductive kind : Type :=
| KObject | KArray | KString | KNumber | KTrue | KFalse | KNull.

Definition quote : ascii := "034"%char.

(** ws = *( %x20 / %x09 / %x0A / %x0D ) *)
Definition is_ws (c : ascii) : bool :=
  let n := nat_of_ascii c in
  Nat.eqb n 32 || Nat.eqb n 9 || Nat.eqb n 10 || Nat.eqb n 13.

Fixpoint skip_ws (s : string) : string :=
  match s with
  | String c s' => if is_ws c then skip_ws s' else s
  | EmptyString => EmptyString
  end.

Definition is_digit (c : ascii) : bool :=
  let n := nat_of_ascii c in Nat.leb 48 n && Nat.leb n 57.

Definition is_hex (c : ascii) : bool :=
  let n := nat_of_ascii c in
  is_digit c || (Nat.leb 65 n && Nat.leb n 70) || (Nat.leb 97 n && Nat.leb n 102).

Fixpoint skip_digits (s : string) : string :=
  match s with
  | String c s' => if is_digit c then skip_digits s' else s
  | EmptyString => EmptyString
  end.

(** One or more digits *)
Definition scan_digits (s : string) : option string :=
  match s with
  | String c s' => if is_digit c then Some (skip_digits s') else None
  | EmptyString => None
  end.

(** int = zero / ( digit1-9 *DIGIT ) *)
Definition scan_int (s : string) : option string :=
  match s with
  | String c s' =>
      if Ascii.eqb c "0" then Some s'
      else if is_digit c then Some (skip_digits s')
      else None
  | EmptyString => None
  end.

(** [ frac ], frac = decimal-point 1*DIGIT *)
Definition scan_frac (s : string) : option string :=
  match s with
  | String c s' => if Ascii.eqb c "." then scan_digits s' else Some s
  | EmptyString => Some s
  end.

(** [ exp ], exp = e [ minus / plus ] 1*DIGIT *)
Definition scan_exp (s : string) : option string :=
  match s with
  | String c s' =>
      if Ascii.eqb c "e" || Ascii.eqb c "E" then
        match s' with
        | String c' s'' =>
            if Ascii.eqb c' "+" || Ascii.eqb c' "-" then scan_digits s''
            else scan_digits s'
        | EmptyString => None
        end
      else Some s
  | EmptyString => Some s
  end.

(** number = [ minus ] int [ frac ] [ exp ] *)
Definition scan_number (s : string) : option string :=
  let s1 := match s with
            | String c s' => if Ascii.eqb c "-" then s' else s
            | EmptyString => s
            end in
  match scan_int s1 with
  | Some s2 => match scan_frac s2 with
               | Some s3 => scan_exp s3
               | None => None
               end
  | None => None
  end.

(** The characters of a string after its opening quotation mark, up to and
    with the closing one: unescaped characters from %x20 on except the
    quotation mark and the backslash, and escapes. *)
Fixpoint scan_chars (s : string) : option string :=
  match s with
  | EmptyString => None
  | String c s' =>
      if Ascii.eqb c quote then Some s'
      else if Ascii.eqb c "\" then
        match s' with
        | String e s'' =>
            if Ascii.eqb e quote || Ascii.eqb e "\" || Ascii.eqb e "/"
               || Ascii.eqb e "b" || Ascii.eqb e "f" || Ascii.eqb e "n"
               || Ascii.eqb e "r" || Ascii.eqb e "t"
            then scan_chars s''
            else if Ascii.eqb e "u" then
              match s'' with
              | String h1 (String h2 (String h3 (String h4 s5))) =>
                  if is_hex h1 && is_hex h2 && is_hex h3 && is_hex h4
                  then scan_chars s5 else None
              | _ => None
              end
            else None
        | EmptyString => None
        end
      else if Nat.ltb (nat_of_ascii c) 32 then None
      else scan_chars s'
  end.

Definition scan_string (s : string) : option string :=
  match s with
  | String c s' => if Ascii.eqb c quote then scan_chars s' else None
  | EmptyString => None
  end.

Definition scan_literal (lit s : string) : option string :=
  if String.prefix lit s
  then Some (String.substring (String.length lit)
               (String.length s - String.length lit) s)
  else None.

(** value *( value-separator value ) end-array, the array's elements once
    the array is known not to be empty *)
Fixpoint scan_elements (scan : string -> option (kind * string))
    (fuel : nat) (s : string) : option string :=
  match fuel with
  | O => None
  | S fuel' =>
      match scan s with
      | Some (_, s1) =>
          match skip_ws s1 with
          | String c s2 =>
              if Ascii.eqb c "," then scan_elements scan fuel' s2
              else if Ascii.eqb c "]" then Some s2
              else None
          | EmptyString => None
          end
      | None => None
      end
  end.

(** member *( value-separator member ) end-object,
    member = string name-separator value *)
Fixpoint scan_members (scan : string -> option (kind * string))
    (fuel : nat) (s : string) : option string :=
  match fuel with
  | O => None
  | S fuel' =>
      match scan_string (skip_ws s) with
      | Some s1 =>
          match skip_ws s1 with
          | String c s2 =>
              if Ascii.eqb c ":" then
                match scan s2 with
                | Some (_, s3) =>
                    match skip_ws s3 with
                    | String c' s4 =>
                        if Ascii.eqb c' "," then scan_members scan fuel' s4
                        else if Ascii.eqb c' "}" then Some s4
                        else None
                    | EmptyString => None
                    end
                | None => None
                end
              else None
          | EmptyString => None
          end
      | None => None
      end
  end.

(** ws value: the kind of the value and what follows it *)
Fixpoint scan_value (fuel : nat) (s : string) : option (kind * string) :=
  match fuel with
  | O => None
  | S fuel' =>
      match skip_ws s with
      | EmptyString => None
      | String c s' as t =>
          if Ascii.eqb c "{" then
            match skip_ws s' with
            | String c' s'' =>
                if Ascii.eqb c' "}" then Some (KObject, s'')
                else option_map (pair KObject)
                       (scan_members (scan_value fuel') fuel' s')
            | EmptyString => None
            end
          else if Ascii.eqb c "[" then
            match skip_ws s' with
            | String c' s'' =>
                if Ascii.eqb c' "]" then Some (KArray, s'')
                else option_map (pair KArray)
                       (scan_elements (scan_value fuel') fuel' s')
            | EmptyString => None
            end
          else if Ascii.eqb c quote then option_map (pair KString) (scan_chars s')
          else if Ascii.eqb c "t" then option_map (pair KTrue) (scan_literal "true" t)
          else if Ascii.eqb c "f" then option_map (pair KFalse) (scan_literal "false" t)
          else if Ascii.eqb c "n" then option_map (pair KNull) (scan_literal "null" t)
          else option_map (pair KNumber) (scan_number t)
      end
  end.

(** JSON-text = ws value ws: the kind of value a text is the JSON text of,
    [None] for a text that is not valid JSON *)
Definition kind_of (text : string) : option kind :=
  match scan_value (S (String.length text)) text with
  | Some (k, rest) =>
      match skip_ws rest with
      | EmptyString => Some k
      | String _ _ => None
      end
  | None => None
  end.

Definition valid (text : string) : bool :=
  match kind_of text with Some _ => true | None => false end.

(** The kind of JSON value a Python value is the decoding of *)
Definition kind_of_value (v : value) : kind :=
  match v with
  | VNone => KNull
  | VBool true => KTrue
  | VBool false => KFalse
  | VInt _ | VFloat _ => KNumber
  | VStr _ => KString
  | VList _ => KArray
  | VDict _ => KObject
  end.

End Json.

(** ** The decoder of CPython on some texts

    [json.loads] does not accept exactly the valid JSON texts: it decodes
    the constants [NaN], [Infinity] and [-Infinity], which the grammar does
    not have, and it refuses an integer literal with more digits than
    [sys.get_int_max_str_digits()], 4300 when the interpreter starts
    (CPython 3.11). *)

Module Cpython.

Definition int_max_str_digits : nat := 4300.

Fixpoint digits_value (acc : Z) (s : string) : Z :=
  match s with
  | EmptyString => acc
  | String c s' =>
      digits_value (10 * acc + (Z.of_nat (nat_of_ascii c) - 48)) s'
  end.

Definition digits_error (n : nat) : exn :=
  PyException "ValueError"
    ("Exceeds the limit (" +:+ pretty int_max_str_digits +:+
     " digits) for integer string conversion: value has " +:+ pretty n +:+
     " digits; use sys.set_int_max_str_digits() to increase the limit").

(** The text [{"points": 5}] *)
Definition points_text : string :=
  "{" +:+ String Json.quote "points" +:+ String Json.quote ": 5}".

(** [json.loads] on the three constants, on the integer literals (the
    limit counts the digits, not the sign) and on the payloads of the
    examples. *)
Definition loads (text : string) : outcome value :=
  if String.eqb text "NaN" then Ret (VFloat PrimFloat.nan)
  else if String.eqb text "Infinity" then Ret (VFloat PrimFloat.infinity)
  else if String.eqb text "-Infinity" then Ret (VFloat PrimFloat.neg_infinity)
  else
    let (negative, digits) :=
      match text with
      | String c t => if Ascii.eqb c "-" then (true, t) else (false, text)
      | EmptyString => (false, text)
      end in
    match Json.scan_int digits with
    | Some EmptyString =>
        if (int_max_str_digits <? String.length digits)%nat
        then Raise (digits_error (String.length digits))
        else Ret (VInt (if negative then - digits_value 0 digits
                        else digits_value 0 digits))
    | _ =>
        if String.eqb text points_text
        then Ret (VDict [("points", VInt 5)])
        else Scenario.loads text
    end.

Definition runtime : Runtime :=
  {| json_loads := loads;
     json_dumps := Scenario.dumps;
     py_repr := Scenario.repr;
     os_getcwd := Ret "/work" |}.

Fixpoint zeros (n : nat) : string :=
  match n with
  | O => EmptyString
  | S n' => String "0" (zeros n')
  end.

(** The decimal text of 10 ^ 4300: 4301 digits *)
Definition long_int_text : string := String "1" (zeros 4300).

End Cpython.

(** The canonical form of a slash command: one slash, then a name that is
    not empty and does not begin with a slash. *)
Definition canonical (command : string) : bool :=
  match command with
  | String c (String d _) => Ascii.eqb c "/" && negb (Ascii.eqb d "/")
  | _ => false
  end.

(** ** Facts about strings and the alias table *)

Lemma str_remove_absent (c : ascii) (s : string) :
  str_mem c s = false -> str_remove c s = s.
Proof.
  induction s as [|a s IH]; simpl; [done|].
  destruct (Ascii.eqb a c); simpl; [done|].
  intros H. by rewrite IH.
Qed.

Lemma str_remove_gone (c : ascii) (s : string) :
  str_mem c (str_remove c s) = false.
Proof.
  induction s as [|a s IH]; simpl; [done|].
  destruct (Ascii.eqb a c) eqn:E; simpl; [done|].
  by rewrite E.
Qed.

Lemma str_remove_leading (c : ascii) (s : string) :
  str_remove c (String c s) = str_remove c s.
Proof. simpl. by rewrite Ascii.eqb_refl. Qed.

Lemma command_items_NoDup : NoDup command_items.*1.
Proof. apply (bool_decide_unpack _). by vm_compute. Qed.

Lemma command_map_lookup (k v : string) :
  command_map !! k = Some v <-> (k, v) ∈ command_items.
Proof.
  unfold command_map. symmetry.
  apply elem_of_list_to_map, command_items_NoDup.
Qed.

Lemma command_map_value (k v : string) :
  command_map !! k = Some v -> v = "/" +:+ k.
Proof.
  rewrite command_map_lookup. unfold command_items.
  rewrite !elem_of_cons, elem_of_nil.
  intros H. repeat (destruct H as [H|H]; [by inversion H|]). done.
Qed.

Lemma command_map_keys (k : string) :
  is_Some (command_map !! k) <-> k ∈ command_names.
Proof.
  split.
  - intros [v Hv]. apply command_map_lookup in Hv.
    change command_names with command_items.*1.
    by apply (list_elem_of_fmap_2 fst) in Hv.
  - unfold command_names. rewrite !elem_of_cons, elem_of_nil.
    intros H.
    repeat (destruct H as [->|H]; [by vm_compute; eexists|]). done.
Qed.

(** A recognized name, with slashes anywhere in it, resolves to the table's
    entry for the name without its slashes. *)
Lemma xavier_command_recognized (command v : string) :
  command_map !! str_remove "/" command = Some v -> xavier_command command = v.
Proof. unfold xavier_command. by intros ->. Qed.

(** Otherwise the raw name, slashes included, gets one more slash in front. *)
Lemma xavier_command_unrecognized (command : string) :
  command_map !! str_remove "/" command = None ->
  xavier_command command = "/" +:+ command.
Proof. unfold xavier_command. by intros ->. Qed.

Lemma xavier_command_prefix (command : string) :
  String.prefix "/" (xavier_command command) = true.
Proof.
  unfold xavier_command.
  destruct (command_map !! _) as [v|] eqn:E; simpl.
  - apply command_map_value in E. subst v. simpl. by destruct (str_remove _ _).
  - by destruct command.
Qed.

(** ** Facts about the run of [main] *)

Section BridgeFacts.
Context {RT : Runtime} {XC : Collaborator}.

Implicit Types (argv rest : list string) (prog command : string).
Implicit Types (w : world) (v args : value) (e : exn).

(** Argument parsing never raises and leaves the world alone. *)
Lemma parse_args_total argv w : parse_args argv w = (Ret (payload argv), w).
Proof.
  unfold payload, parse_args.
  destruct (2 <? length argv)%nat; [|done].
  unfold try_except, lift, ret.
  by destruct (json_loads _).
Qed.

Lemma payload_absent prog command : payload [prog; command] = VDict [].
Proof. reflexivity. Qed.

Lemma payload_decoded prog command rest v :
  rest <> [] ->
  json_loads (String.concat " " rest) = Ret v ->
  payload (prog :: command :: rest) = v.
Proof.
  intros Hrest Hv. destruct rest as [|a rest]; [done|].
  unfold payload, parse_args, try_except, lift.
  change (drop 2 (prog :: command :: a :: rest)) with (a :: rest).
  change (2 <? length (prog :: command :: a :: rest))%nat with true.
  cbv iota. by rewrite Hv.
Qed.

Lemma payload_malformed prog command rest e :
  json_loads (String.concat " " rest) = Raise e ->
  payload (prog :: command :: rest) = VDict [].
Proof.
  intros He. destruct rest as [|a rest]; [done|].
  unfold payload, parse_args, try_except, lift.
  change (drop 2 (prog :: command :: a :: rest)) with (a :: rest).
  change (2 <? length (prog :: command :: a :: rest))%nat with true.
  cbv iota. by rewrite He.
Qed.

(** With a command name on the command line, the run is the dispatch of the
    resolved command with the parsed payload. *)
Lemma run_dispatch prog command rest :
  run (prog :: command :: rest) =
  dispatch (xavier_command command) (payload (prog :: command :: rest)) world0.
Proof.
  unfold run, main.
  change (length (prog :: command :: rest) <? 2)%nat with false.
  change ((prog :: command :: rest) !! 1%nat) with (Some command).
  cbv iota. unfold bind. by rewrite parse_args_total.
Qed.

(** Reporting prints at most once and makes no call. *)
Lemma report_calls v w : calls (report v w).2 = calls w.
Proof.
  unfold report. destruct v; try done.
  destruct (truthy _).
  - destruct (dict_lookup d "result"); [|done].
    unfold bind, lift. by destruct (json_dumps _ _).
  - unfold bind, lift. by destruct (py_str _).
Qed.

(** The calls a dispatch makes: the constructor once the working directory
    is known, then [execute] once the instance exists. *)
Lemma dispatch_calls command args w :
  calls (dispatch command args w).2 =
  (calls w ++
    match os_getcwd with
    | Raise _ => []
    | Ret cwd =>
        Construct cwd ::
        match XavierCommands cwd with
        | Raise _ => []
        | Ret _ => [Execute command args]
        end
    end)%list.
Proof.
  unfold dispatch, try_except, bind, lift, record.
  destruct os_getcwd as [cwd|e]; simpl.
  2:{ destruct (is_Exception e); simpl; by rewrite app_nil_r. }
  destruct (XavierCommands cwd) as [x|e]; simpl.
  2:{ by destruct (is_Exception e). }
  destruct (execute x command args) as [r|e]; simpl.
  2:{ destruct (is_Exception e); simpl; by rewrite <- app_assoc. }
  pose proof (report_calls r
    (World (stdout w) ((calls w ++ [Construct cwd]) ++ [Execute command args]))) as Hr.
  destruct (report r _) as [[[]|e] w']; simpl in *.
  - by rewrite Hr, <- app_assoc.
  - destruct (is_Exception e); simpl; by rewrite Hr, <- app_assoc.
Qed.

(** An [Exception] raised by the constructor is printed. *)
Lemma dispatch_construct_raises command args w cwd e :
  os_getcwd = Ret cwd ->
  XavierCommands cwd = Raise e ->
  is_Exception e = true ->
  dispatch command args w =
  (Ret tt, World (stdout w ++ [error_prefix +:+ exn_str e])
                 (calls w ++ [Construct cwd])).
Proof.
  intros Hcwd Hx He.
  unfold dispatch, try_except, bind, lift, record.
  rewrite Hcwd. simpl. rewrite Hx. simpl. by rewrite He.
Qed.

(** An [Exception] raised by [execute] is printed. *)
Lemma dispatch_execute_raises command args w cwd x e :
  os_getcwd = Ret cwd ->
  XavierCommands cwd = Ret x ->
  execute x command args = Raise e ->
  is_Exception e = true ->
  dispatch command args w =
  (Ret tt, World (stdout w ++ [error_prefix +:+ exn_str e])
                 (calls w ++ [Construct cwd; Execute command args])).
Proof.
  intros Hcwd Hx Hr He.
  unfold dispatch, try_except, bind, lift, record.
  rewrite Hcwd. simpl. rewrite Hx. simpl. rewrite Hr. simpl.
  by rewrite He, <- app_assoc.
Qed.

(** What is not an [Exception] passes through the handler. *)
Lemma dispatch_execute_exits command args w cwd x code :
  os_getcwd = Ret cwd ->
  XavierCommands cwd = Ret x ->
  execute x command args = Raise (SystemExit code) ->
  dispatch command args w =
  (Raise (SystemExit code),
   World (stdout w) (calls w ++ [Construct cwd; Execute command args])).
Proof.
  intros Hcwd Hx Hr.
  unfold dispatch, try_except, bind, lift, record.
  rewrite Hcwd. simpl. rewrite Hx. simpl. rewrite Hr. simpl.
  by rewrite <- app_assoc.
Qed.

(** When [execute] returns, the rest of the [try] block is the report. *)
Lemma dispatch_returns command args w cwd x result :
  os_getcwd = Ret cwd ->
  XavierCommands cwd = Ret x ->
  execute x command args = Ret result ->
  dispatch command args w =
  try_except (report result) is_Exception
    (fun e => print (error_prefix +:+ exn_str e))
    (World (stdout w) (calls w ++ [Construct cwd; Execute command args])).
Proof.
  intros Hcwd Hx Hr.
  unfold dispatch, try_except, bind, lift, record.
  rewrite Hcwd. simpl. rewrite Hx. simpl. rewrite Hr. simpl.
  by rewrite <- app_assoc.
Qed.

(** The calls of a run with a command name. *)
Lemma trace_command prog command rest :
  trace (prog :: command :: rest) =
  match os_getcwd with
  | Raise _ => []
  | Ret cwd =>
      Construct cwd ::
      match XavierCommands cwd with
      | Raise _ => []
      | Ret _ =>
          [Execute (xavier_command command) (payload (prog :: command :: rest))]
      end
  end.
Proof. unfold trace. rewrite run_dispatch. by rewrite dispatch_calls. Qed.

Lemma trace_execute prog command rest c a :
  Execute c a ∈ trace (prog :: command :: rest) ->
  c = xavier_command command /\ a = payload (prog :: command :: rest).
Proof.
  rewrite trace_command.
  destruct os_getcwd as [cwd|?]; [|by intros ?%elem_of_nil].
  destruct (XavierCommands cwd) as [x|?].
  - rewrite !elem_of_cons, elem_of_nil. intros [H|[H|[]]]; [done|].
    by inversion H.
  - rewrite !elem_of_cons, elem_of_nil. by intros [H|[]].
Qed.

Lemma trace_reached prog command rest cwd x :
  os_getcwd = Ret cwd ->
  XavierCommands cwd = Ret x ->
  trace (prog :: command :: rest) =
  [Construct cwd;
   Execute (xavier_command command) (payload (prog :: command :: rest))].
Proof. intros Hcwd Hx. by rewrite trace_command, Hcwd, Hx. Qed.

(** Without a command name the script prints its usage and exits with 1. *)
Lemma run_usage argv :
  (length argv < 2)%nat ->
  run argv = (Raise (SystemExit 1), World [usage_message] []).
Proof.
  intros Hlen. unfold run, main.
  destruct (Nat.ltb_spec (length argv) 2) as [_|?]; [done|lia].
Qed.


(** The report of a failed result whose error field has a [str]. *)
Lemma report_error d s w :
  truthy (default VNone (dict_lookup d "success")) = false ->
  py_str (default (VStr unknown_error) (dict_lookup d "error")) = Ret s ->
  report (VDict d) w =
  (Ret tt, World (stdout w ++ [error_prefix +:+ s]) (calls w)).
Proof.
  intros Hfalse Hs. unfold report, bind, lift. by rewrite Hfalse, Hs.
Qed.

(** When the [str] of the error field raises, the report raises the same,
    before anything is printed. *)
Lemma report_error_raises d e w :
  truthy (default VNone (dict_lookup d "success")) = false ->
  py_str (default (VStr unknown_error) (dict_lookup d "error")) = Raise e ->
  report (VDict d) w = (Raise e, w).
Proof.
  intros Hfalse He. unfold report, bind, lift. by rewrite Hfalse, He.
Qed.

(** The report of a successful result without a [result] field. *)
Lemma report_success d flag w :
  dict_lookup d "success" = Some flag ->
  truthy flag = true ->
  dict_lookup d "result" = None ->
  report (VDict d) w = (Ret tt, World (stdout w ++ [success_message]) (calls w)).
Proof.
  intros Hflag Htrue Hr. unfold report.
  by rewrite Hflag, Hr; simpl; rewrite Htrue.
Qed.

(** A [result] field that [json.dumps] refuses makes the report raise what
    [json.dumps] raised, before anything is printed. *)
Lemma report_unrenderable d flag r e w :
  dict_lookup d "success" = Some flag ->
  truthy flag = true ->
  dict_lookup d "result" = Some r ->
  json_dumps r 2 = Raise e ->
  report (VDict d) w = (Raise e, w).
Proof.
  intros Hflag Htrue Hr He. unfold report, bind, lift.
  by rewrite Hflag, Hr, He; simpl; rewrite Htrue.
Qed.

(** A value that is no dict has no [get] method. *)
Lemma report_not_a_dict v w :
  is_dict v = false ->
  report v w =
  (Raise (PyException "AttributeError"
            ("'" +:+ type_name v +:+ "' object has no attribute 'get'")), w).
Proof. by destruct v. Qed.

(** A run whose [execute] call returns is the report of what it returned. *)
Lemma run_returns prog command rest cwd x result :
  os_getcwd = Ret cwd ->
  XavierCommands cwd = Ret x ->
  execute x (xavier_command command) (payload (prog :: command :: rest))
    = Ret result ->
  run (prog :: command :: rest) =
  try_except (report result) is_Exception
    (fun e => print (error_prefix +:+ exn_str e))
    (World [] [Construct cwd;
               Execute (xavier_command command)
                 (payload (prog :: command :: rest))]).
Proof.
  intros Hcwd Hx Hr. rewrite run_dispatch.
  by rewrite (dispatch_returns _ _ _ cwd x result).
Qed.

End BridgeFacts.

(** ** Alias resolution: the claims *)

Lemma str_lstrip_absent (c : ascii) (s : string) :
  str_mem c s = false -> str_lstrip c s = s.
Proof.
  destruct s as [|a s]; simpl; [done|].
  by destruct (Ascii.eqb a c).
Qed.

(** On a name without a slash the script resolves as the specification
    words it. *)
Lemma xavier_command_refines (command : string) :
  str_mem "/" command = false ->
  xavier_command command = xavier_command_spec command.
Proof.
  intros H. unfold xavier_command, xavier_command_spec.
  by rewrite str_remove_absent, str_lstrip_absent.
Qed.

(** An unrecognized name that comes with its leading slash leaves with two. *)
Lemma xavier_command_leading_slash (name : string) :
  command_map !! str_remove "/" name = None ->
  xavier_command ("/" +:+ name) = "//" +:+ name.
Proof.
  intros H. rewrite xavier_command_unrecognized; [done|].
  simpl. exact H.
Qed.

(** A name that is no key of the table but becomes one when its inner
    slashes go resolves to that key's entry. *)
Example xavier_command_inner_slash :
  command_map !! "create-/story" = None /\
  xavier_command "create-/story" = "/create-story".
Proof. by vm_compute. Qed.

(** C1: for a command name that is no key of the alias table, resolution is
    claimed to strip the leading slash and yield the name behind one slash,
    the same for [/x] and [x].  The script does so for [foo]; for [/foo] it
    looks [foo] up, finds nothing and puts a slash in front of the raw
    [/foo]: the result is [//foo], where the resolution as specified gives
    [/foo]. *)
Theorem C1_unrecognized_leading_slash_doubled :
  command_map !! "foo" = None /\
  command_map !! "/foo" = None /\
  xavier_command "foo" = "/foo" /\
  xavier_command "/foo" = "//foo" /\
  xavier_command_spec "/foo" = "/foo".
Proof. by vm_compute. Qed.

(** C5: each of the eleven recognized short names, which are the keys of
    the alias table, resolves to the same name behind a single slash. *)
Theorem C5_recognized_names_resolve :
  length command_names = 11%nat /\
  (forall name, name ∈ command_names <-> is_Some (command_map !! name)) /\
  Forall (fun name => xavier_command name = "/" +:+ name) command_names.
Proof.
  split; [done|]. split.
  - intros name. symmetry. apply command_map_keys.
  - unfold command_names. repeat (constructor; [by vm_compute|]). constructor.
Qed.

(** ** The run of the script: the claims *)

Implicit Types (argv rest : list string) (prog command : string).



(** C3, as amended: when [json.loads] raises on the extra arguments joined
    by single spaces, as it does on every text that is not valid JSON apart
    from the few it accepts beyond the grammar, argument parsing returns
    normally with the empty mapping, and the empty mapping is what
    [execute] is called with. *)
Theorem C3_malformed_payload_is_empty {RT : Runtime} {XC : Collaborator}
    prog command rest (e : exn) :
  json_loads (String.concat " " rest) = Raise e ->
  (forall w, parse_args (prog :: command :: rest) w = (Ret (VDict []), w)) /\
  (forall c a, Execute c a ∈ trace (prog :: command :: rest) -> a = VDict []) /\
  (forall cwd x, os_getcwd = Ret cwd -> XavierCommands cwd = Ret x ->
     trace (prog :: command :: rest) =
     [Construct cwd; Execute (xavier_command command) (VDict [])]).
Proof.
  intros He.
  pose proof (payload_malformed prog command rest e He) as Hp.
  split; [|split].
  - intros w. by rewrite parse_args_total, Hp.
  - intros c a [_ ->]%trace_execute. exact Hp.
  - intros cwd x Hcwd Hx. by rewrite (trace_reached _ _ _ cwd x), Hp.
Qed.

Lemma C3_malformed_payload_is_empty_witness :
  Scenario.loads (String.concat " " ["{a:"; "1"]) = Raise Scenario.decode_error /\
  @trace Scenario.runtime (Scenario.returning VNone)
    [Scenario.prog; "create-story"; "{a:"; "1"]
  = [Construct "/work"; Execute "/create-story" (VDict [])].
Proof.
  split; [reflexivity|].
  exact (proj2 (proj2
    (@C3_malformed_payload_is_empty Scenario.runtime (Scenario.returning VNone)
       Scenario.prog "create-story" ["{a:"; "1"] Scenario.decode_error eq_refl))
    "/work" _ eq_refl eq_refl).
Defined.

(** The claim C3 speaks of every text that is not valid JSON.  [NaN] is not
    valid JSON, yet [json.loads] decodes it: [execute] is called with a
    float, not with the empty mapping. *)
Lemma C3_counterexample_nan :
  Json.valid (String.concat " " ["NaN"]) = false /\
  @trace Cpython.runtime (Scenario.returning VNone)
    [Scenario.prog; "create-story"; "NaN"]
  = [Construct "/work"; Execute "/create-story" (VFloat PrimFloat.nan)] /\
  VFloat PrimFloat.nan <> VDict [].
Proof. split; [reflexivity|]. split; [reflexivity|discriminate]. Qed.

(** C8, as amended: when there are extra arguments and [json.loads] returns
    a value for their text, joined by single spaces, as it does on every
    valid JSON text it does not refuse for its size, [execute] is called
    with that value. *)
Theorem C8_valid_payload_is_decoded {RT : Runtime} {XC : Collaborator}
    prog command rest (v : value) :
  rest <> [] ->
  json_loads (String.concat " " rest) = Ret v ->
  (forall w, parse_args (prog :: command :: rest) w = (Ret v, w)) /\
  (forall c a, Execute c a ∈ trace (prog :: command :: rest) -> a = v) /\
  (forall cwd x, os_getcwd = Ret cwd -> XavierCommands cwd = Ret x ->
     trace (prog :: command :: rest) =
     [Construct cwd; Execute (xavier_command command) v]).
Proof.
  intros Hrest Hv.
  pose proof (payload_decoded prog command rest v Hrest Hv) as Hp.
  split; [|split].
  - intros w. by rewrite parse_args_total, Hp.
  - intros c a [_ ->]%trace_execute. exact Hp.
  - intros cwd x Hcwd Hx. by rewrite (trace_reached _ _ _ cwd x), Hp.
Qed.

Lemma C8_valid_payload_is_decoded_witness :
  ["{" +:+ String Json.quote "points" +:+ String Json.quote ":"; "5}"] <> [] /\
  Cpython.loads
    (String.concat " "
       ["{" +:+ String Json.quote "points" +:+ String Json.quote ":"; "5}"])
    = Ret (VDict [("points", VInt 5)]) /\
  @trace Cpython.runtime (Scenario.returning VNone)
    [Scenario.prog; "set-story-points";
     "{" +:+ String Json.quote "points" +:+ String Json.quote ":"; "5}"]
  = [Construct "/work";
     Execute "/set-story-points" (VDict [("points", VInt 5)])].
Proof.
  assert (H : ["{" +:+ String Json.quote "points" +:+ String Json.quote ":";
               "5}"] <> @nil string) by discriminate.
  split; [exact H|]. split; [reflexivity|].
  exact (proj2 (proj2
    (@C8_valid_payload_is_decoded Cpython.runtime (Scenario.returning VNone)
       Scenario.prog "set-story-points"
       ["{" +:+ String Json.quote "points" +:+ String Json.quote ":"; "5}"]
       (VDict [("points", VInt 5)]) H eq_refl))
    "/work" _ eq_refl eq_refl).
Defined.

(** The claim C8 speaks of every valid JSON text.  The decimal text of
    10 ^ 4300 is valid JSON, the text of a number, yet [json.loads] refuses
    it for its 4301 digits: [execute] is called with the empty mapping,
    which is not the decoding of a number. *)
Lemma C8_counterexample_long_int :
  Json.kind_of (String.concat " " [Cpython.long_int_text]) = Some Json.KNumber /\
  Cpython.loads (String.concat " " [Cpython.long_int_text])
    = Raise (Cpython.digits_error 4301) /\
  @trace Cpython.runtime (Scenario.returning VNone)
    [Scenario.prog; "estimate-story"; Cpython.long_int_text]
  = [Construct "/work"; Execute "/estimate-story" (VDict [])] /\
  Json.kind_of_value (VDict []) <> Json.KNumber.
Proof.
  split; [by vm_compute|]. split; [by vm_compute|].
  split; [by vm_compute|discriminate].
Qed.

(** C10: when the extra arguments decode to a value that is not a mapping,
    [execute] is called with that value, not with the empty mapping. *)
Theorem C10_non_mapping_payload_is_passed {RT : Runtime} {XC : Collaborator}
    prog command rest (v : value) :
  rest <> [] ->
  json_loads (String.concat " " rest) = Ret v ->
  is_dict v = false ->
  v <> VDict [] /\
  (forall c a, Execute c a ∈ trace (prog :: command :: rest) -> a = v) /\
  (forall cwd x, os_getcwd = Ret cwd -> XavierCommands cwd = Ret x ->
     trace (prog :: command :: rest) =
     [Construct cwd; Execute (xavier_command command) v]).
Proof.
  intros Hrest Hv Hnd.
  pose proof (payload_decoded prog command rest v Hrest Hv) as Hp.
  split; [|split].
  - intros ->. discriminate.
  - intros c a [_ ->]%trace_execute. exact Hp.
  - intros cwd x Hcwd Hx. by rewrite (trace_reached _ _ _ cwd x), Hp.
Qed.

Lemma C10_non_mapping_payload_is_passed_witness :
  ["[1,"; "2]"] <> [] /\
  Scenario.loads (String.concat " " ["[1,"; "2]"]) = Ret (VList [VInt 1; VInt 2]) /\
  is_dict (VList [VInt 1; VInt 2]) = false /\
  @trace Scenario.runtime (Scenario.returning VNone)
    [Scenario.prog; "create-task"; "[1,"; "2]"]
  = [Construct "/work"; Execute "/create-task" (VList [VInt 1; VInt 2])].
Proof.
  assert (H : ["[1,"; "2]"] <> @nil string) by discriminate.
  split; [exact H|]. split; [reflexivity|]. split; [reflexivity|].
  exact (proj2 (proj2
    (@C10_non_mapping_payload_is_passed Scenario.runtime
       (Scenario.returning VNone) Scenario.prog "create-task" ["[1,"; "2]"]
       (VList [VInt 1; VInt 2]) H eq_refl eq_refl))
    "/work" _ eq_refl eq_refl).
Defined.

(** The command [execute] is called with is the resolved one; it begins
    with a slash, whatever the command name. *)
Lemma executed_command_prefix {RT : Runtime} {XC : Collaborator}
    prog command rest :
  String.prefix "/" (xavier_command command) = true /\
  (forall c a, Execute c a ∈ trace (prog :: command :: rest) ->
     c = xavier_command command /\ String.prefix "/" c = true) /\
  (forall cwd x, os_getcwd = Ret cwd -> XavierCommands cwd = Ret x ->
     exists a,
       trace (prog :: command :: rest) =
       [Construct cwd; Execute (xavier_command command) a]).
Proof.
  split; [apply xavier_command_prefix|]. split.
  - intros c a [-> _]%trace_execute. split; [done|].
    apply xavier_command_prefix.
  - intros cwd x Hcwd Hx. eexists. by apply trace_reached with x.
Qed.

(** A recognized command, and an unrecognized one without a slash, reach
    [execute] in canonical form. *)
Lemma canonical_without_slash (command : string) :
  command <> "" ->
  str_mem "/" command = false ->
  canonical (xavier_command command) = true.
Proof.
  intros Hne Hmem. unfold xavier_command.
  rewrite (str_remove_absent _ _ Hmem).
  assert (Hc : canonical ("/" +:+ command) = true).
  { destruct command as [|a s]; [done|]. simpl in Hmem.
    apply orb_false_elim in Hmem as [Ha _].
    change ("/" +:+ String a s) with (String "/" (String a s)).
    unfold canonical. by rewrite Ha. }
  destruct (command_map !! command) as [v|] eqn:E; simpl; [|done].
  apply command_map_value in E. by subst v.
Qed.


(** C2: when the collaborator's constructor or its [execute] method raises
    an error, that is an instance of [Exception], [main] returns normally
    after a single [print] of the error prefix followed by the error's
    message, and the process exits with status 0. *)
Theorem C2_raised_error_is_reported {RT : Runtime} {XC : Collaborator}
    prog command rest (cwd : string) (e : exn) :
  os_getcwd = Ret cwd ->
  is_Exception e = true ->
  (XavierCommands cwd = Raise e \/
   exists x, XavierCommands cwd = Ret x /\
     execute x (xavier_command command) (payload (prog :: command :: rest))
       = Raise e) ->
  (run (prog :: command :: rest)).1 = Ret tt /\
  output (prog :: command :: rest) = [error_prefix +:+ exn_str e] /\
  status (prog :: command :: rest) = 0%Z.
Proof.
  intros Hcwd He Hraise. unfold output, status. rewrite run_dispatch.
  destruct Hraise as [Hx|(x & Hx & Hr)].
  - by rewrite (dispatch_construct_raises _ _ _ cwd e).
  - by rewrite (dispatch_execute_raises _ _ _ cwd x e).
Qed.

Lemma C2_raised_error_is_reported_witness :
  @os_getcwd Scenario.runtime = Ret "/work" /\
  is_Exception (PyException "ValueError" "no such story") = true /\
  @output Scenario.runtime
    (Scenario.raising (PyException "ValueError" "no such story"))
    [Scenario.prog; "estimate-story"; "42"]
  = ["❌ Error: no such story"] /\
  @status Scenario.runtime
    (Scenario.raising (PyException "ValueError" "no such story"))
    [Scenario.prog; "estimate-story"; "42"] = 0%Z.
Proof.
  split; [reflexivity|]. split; [reflexivity|].
  exact (proj2
    (@C2_raised_error_is_reported Scenario.runtime
       (Scenario.raising (PyException "ValueError" "no such story"))
       Scenario.prog "estimate-story" ["42"] "/work"
       (PyException "ValueError" "no such story") eq_refl eq_refl
       (or_intror (ex_intro _ (Executor (fun _ _ => Raise _))
                     (conj eq_refl eq_refl))))).
Defined.

(** What [except Exception] does not catch leaves [main]: a [SystemExit]
    raised by [execute] ends the process with its own code and prints
    nothing. *)
Lemma system_exit_passes {RT : Runtime} {XC : Collaborator}
    prog command rest (cwd : string) (x : executor) (code : Z) :
  os_getcwd = Ret cwd ->
  XavierCommands cwd = Ret x ->
  execute x (xavier_command command) (payload (prog :: command :: rest))
    = Raise (SystemExit code) ->
  (run (prog :: command :: rest)).1 = Raise (SystemExit code) /\
  output (prog :: command :: rest) = [].
Proof.
  intros Hcwd Hx Hr. unfold output. rewrite run_dispatch.
  by rewrite (dispatch_execute_exits _ _ _ cwd x code).
Qed.



(** C7: when [execute] returns a mapping whose [success] field is false (or
    absent, or any value that counts as false), the script prints the error
    prefix followed by the [error] field: by the field itself when it is a
    string, by its [str] when it is another value that has one, and by
    [Unknown error] when the mapping has no [error] field.  The exit status
    is 0. *)
Theorem C7_failure_is_reported {RT : Runtime} {XC : Collaborator}
    prog command rest (cwd : string) (x : executor)
    (d : list (string * value)) :
  os_getcwd = Ret cwd ->
  XavierCommands cwd = Ret x ->
  execute x (xavier_command command) (payload (prog :: command :: rest))
    = Ret (VDict d) ->
  truthy (default VNone (dict_lookup d "success")) = false ->
  (forall msg, dict_lookup d "error" = Some (VStr msg) ->
     output (prog :: command :: rest) = ["❌ Error: " +:+ msg] /\
     status (prog :: command :: rest) = 0%Z) /\
  (forall err s, dict_lookup d "error" = Some err -> py_str err = Ret s ->
     output (prog :: command :: rest) = ["❌ Error: " +:+ s] /\
     status (prog :: command :: rest) = 0%Z) /\
  (dict_lookup d "error" = None ->
     output (prog :: command :: rest) = ["❌ Error: Unknown error"] /\
     status (prog :: command :: rest) = 0%Z).
Proof.
  intros Hcwd Hx Hd Hfalse. unfold output, status.
  rewrite (run_returns _ _ _ cwd x (VDict d)) by done.
  unfold try_except.
  assert (Hs : forall err s,
    dict_lookup d "error" = Some err -> py_str err = Ret s ->
    report (VDict d)
      (World [] [Construct cwd;
                 Execute (xavier_command command)
                   (payload (prog :: command :: rest))]) =
    (Ret tt, World [error_prefix +:+ s]
               [Construct cwd;
                Execute (xavier_command command)
                  (payload (prog :: command :: rest))])).
  { intros err s Herr Hstr. rewrite (report_error d s); [done|done|].
    by rewrite Herr. }
  split; [|split].
  - intros msg Herr. by rewrite (Hs (VStr msg) msg Herr eq_refl).
  - intros err s Herr Hstr. by rewrite (Hs err s Herr Hstr).
  - intros Herr. rewrite (report_error d unknown_error); [done|done|].
    by rewrite Herr.
Qed.

Lemma C7_failure_is_reported_witness :
  truthy (default VNone
            (dict_lookup [("success", VBool false); ("error", VStr "bad input")]
               "success")) = false /\
  dict_lookup [("success", VBool false); ("error", VStr "bad input")] "error"
    = Some (VStr "bad input") /\
  @output Scenario.runtime
    (Scenario.returning
       (VDict [("success", VBool false); ("error", VStr "bad input")]))
    [Scenario.prog; "start-sprint"] = ["❌ Error: bad input"].
Proof.
  split; [reflexivity|]. split; [reflexivity|].
  exact (proj1 (proj1
    (@C7_failure_is_reported Scenario.runtime
       (Scenario.returning
          (VDict [("success", VBool false); ("error", VStr "bad input")]))
       Scenario.prog "start-sprint" [] "/work" (Executor (fun _ _ => Ret _))
       [("success", VBool false); ("error", VStr "bad input")]
       eq_refl eq_refl eq_refl eq_refl) "bad input" eq_refl)).
Defined.

(** When the [str] of the error field raises an [Exception], as the [str]
    of an int beyond the digit limit does, the handler prints that
    exception's message behind the error prefix instead. *)
Lemma failure_with_unprintable_error {RT : Runtime} {XC : Collaborator}
    prog command rest (cwd : string) (x : executor)
    (d : list (string * value)) (err : value) (e : exn) :
  os_getcwd = Ret cwd ->
  XavierCommands cwd = Ret x ->
  execute x (xavier_command command) (payload (prog :: command :: rest))
    = Ret (VDict d) ->
  truthy (default VNone (dict_lookup d "success")) = false ->
  dict_lookup d "error" = Some err ->
  py_str err = Raise e ->
  is_Exception e = true ->
  output (prog :: command :: rest) = [error_prefix +:+ exn_str e] /\
  status (prog :: command :: rest) = 0%Z.
Proof.
  intros Hcwd Hx Hd Hfalse Herr Hstr He. unfold output, status.
  rewrite (run_returns _ _ _ cwd x (VDict d)) by done.
  unfold try_except.
  rewrite (report_error_raises d e); [|done|by rewrite Herr].
  by rewrite He.
Qed.

(** ** Further properties of the run *)

Section RunShape.
Context {RT : Runtime} {XC : Collaborator}.

Implicit Types (w : world) (v args : value) (e : exn).

Lemma py_str_raises v e : py_str v = Raise e -> py_repr v = Raise e.
Proof. by destruct v as [|[]| | | | |]. Qed.

(** A report prints once and returns, or raises before it prints: an
    [Exception], or what [json.dumps] or a [repr] raised. *)
Lemma report_cases v w :
  (exists text, report v w = (Ret tt, World (stdout w ++ [text]) (calls w))) \/
  (exists e, report v w = (Raise e, w) /\
     (is_Exception e = true \/
      (exists r, json_dumps r 2 = Raise e) \/
      (exists v', py_repr v' = Raise e))).
Proof.
  destruct v as [| | | | |l|d];
    try (right; eexists; split; [reflexivity|by left]).
  unfold report.
  destruct (truthy _).
  - destruct (dict_lookup d "result") as [r|]; [|left; by eexists].
    unfold bind, lift. destruct (json_dumps r 2) as [s|e] eqn:E.
    + left. by eexists.
    + right. exists e. split; [done|]. right. left. by exists r.
  - unfold bind, lift.
    destruct (py_str _) as [s|e] eqn:E.
    + left. by eexists.
    + right. exists e. split; [done|]. right. right.
      eexists. by apply py_str_raises.
Qed.

(** A dispatch prints once and returns, or passes on what is no
    [Exception] without anything printed; that exception then came from
    outside the script. *)
Lemma dispatch_cases command args w :
  (exists text cs,
     dispatch command args w = (Ret tt, World (stdout w ++ [text]) cs)) \/
  (exists e cs,
     is_Exception e = false /\
     raise_origin command args e /\
     dispatch command args w = (Raise e, World (stdout w) cs)).
Proof.
  destruct w as [out cs0].
  unfold raise_origin, dispatch, try_except, bind, lift, record.
  destruct os_getcwd as [cwd|e]; simpl.
  2:{ destruct (is_Exception e) eqn:He; [left; by do 2 eexists|].
      right. exists e. eexists. split; [done|]. split; [by left|done]. }
  destruct (XavierCommands cwd) as [x|e] eqn:Ex; simpl.
  2:{ destruct (is_Exception e) eqn:He; [left; by do 2 eexists|].
      right. exists e. eexists. split; [done|].
      split; [right; left; by eexists|done]. }
  destruct (execute x command args) as [r|e] eqn:Er; simpl.
  2:{ destruct (is_Exception e) eqn:He; [left; by do 2 eexists|].
      right. exists e. eexists. split; [done|].
      split; [right; right; left; by do 2 eexists|done]. }
  destruct (report_cases r
    (World out ((cs0 ++ [Construct cwd]) ++ [Execute command args])))
    as [[text ->]|(e & -> & Ho)]; simpl.
  { left. by do 2 eexists. }
  destruct (is_Exception e) eqn:He; [left; by do 2 eexists|].
  right. exists e. eexists. split; [done|]. split; [|done].
  destruct Ho as [Ho|[Ho|Ho]]; [congruence|..].
  - right. right. right. by left.
  - right. right. right. by right.
Qed.

(** A run prints once and returns, or ends with the usage exit after the
    usage message, or ends, nothing printed, with what is no [Exception]
    and came from outside the script. *)
Lemma run_cases (argv : list string) :
  (exists text cs, run argv = (Ret tt, World [text] cs)) \/
  ((length argv < 2)%nat /\
     run argv = (Raise (SystemExit 1), World [usage_message] [])) \/
  (exists prog command rest e cs,
     argv = prog :: command :: rest /\
     is_Exception e = false /\
     raise_origin (xavier_command command) (payload argv) e /\
     run argv = (Raise e, World [] cs)).
Proof.
  destruct argv as [|prog [|command rest]].
  - right. left. split; [simpl; lia|]. apply run_usage. simpl. lia.
  - right. left. split; [simpl; lia|]. apply run_usage. simpl. lia.
  - rewrite run_dispatch.
    destruct (dispatch_cases (xavier_command command)
                (payload (prog :: command :: rest)) world0)
      as [(text & cs & ->)|(e & cs & He & Ho & ->)].
    + left. by do 2 eexists.
    + right. right. by exists prog, command, rest, e, cs.
Qed.

End RunShape.

(** X1: taking [print] to succeed, an exception that ends a run is never an
    instance of [Exception]: it is the usage exit, after the usage message,
    or, with a command name present and nothing printed, an exception
    outside [Exception] that [os.getcwd], the constructor, [execute],
    [json.dumps] or a [repr] raised. *)
Theorem X1_only_foreign_exceptions_leave_main {RT : Runtime} {XC : Collaborator}
    (argv : list string) (e : exn) :
  (run argv).1 = Raise e ->
  is_Exception e = false /\
  ((e = SystemExit 1 /\ (length argv < 2)%nat /\
    output argv = [usage_message]) \/
   (exists prog command rest,
      argv = prog :: command :: rest /\
      raise_origin (xavier_command command) (payload argv) e /\
      output argv = [])).
Proof.
  unfold output.
  destruct (run_cases argv)
    as [(text & cs & ->)|[[Hlen ->]|(p0 & c0 & r0 & e' & cs & -> & He & Ho & ->)]];
    simpl; intros Heq.
  - discriminate.
  - injection Heq as <-. split; [done|]. by left.
  - injection Heq as <-. split; [done|]. right. by exists p0, c0, r0.
Qed.

Lemma X1_only_foreign_exceptions_leave_main_witness :
  (@run Scenario.runtime (Scenario.raising (KeyboardInterrupt ""))
     [Scenario.prog; "show-backlog"]).1 = Raise (KeyboardInterrupt "") /\
  is_Exception (KeyboardInterrupt "") = false /\
  @output Scenario.runtime (Scenario.raising (KeyboardInterrupt ""))
    [Scenario.prog; "show-backlog"] = [].
Proof.
  assert (H : (@run Scenario.runtime (Scenario.raising (KeyboardInterrupt ""))
                 [Scenario.prog; "show-backlog"]).1
              = Raise (KeyboardInterrupt "")) by reflexivity.
  split; [exact H|].
  destruct (@X1_only_foreign_exceptions_leave_main Scenario.runtime
              (Scenario.raising (KeyboardInterrupt ""))
              [Scenario.prog; "show-backlog"] (KeyboardInterrupt "") H)
    as [He _].
  split; [exact He|reflexivity].
Defined.

(** X2: a run calls [print] at most once (the text of one call may span
    several lines): exactly once when [main] returns normally, and not at
    all when, with a command name present, an exception ends the run. *)
Theorem X2_at_most_one_print {RT : Runtime} {XC : Collaborator}
    (argv : list string) :
  (length (output argv) <= 1)%nat /\
  ((run argv).1 = Ret tt -> length (output argv) = 1%nat) /\
  ((2 <= length argv)%nat -> (run argv).1 <> Ret tt -> output argv = []).
Proof.
  unfold output.
  destruct (run_cases argv)
    as [(text & cs & ->)|[[Hlen ->]|(? & ? & ? & e & cs & _ & _ & _ & ->)]];
    simpl; (split; [lia|split]); try done.
  intros. lia.
Qed.

(** X3: with a command name on the command line, and as long as
    [os.getcwd], the collaborator, [json.dumps] and [repr] raise nothing
    but instances of [Exception] (and [print] succeeds), [main] returns
    normally after exactly one [print] call and the process exits with
    status 0: whether the command succeeded, failed or raised cannot be
    told from the exit status.  What [json.loads] raises plays no part. *)
Theorem X3_exit_status_zero {RT : Runtime} {XC : Collaborator}
    prog command rest :
  contained os_getcwd = true ->
  (forall cwd, contained (XavierCommands cwd) = true) ->
  (forall cwd x c a, XavierCommands cwd = Ret x ->
     contained (execute x c a) = true) ->
  (forall r, contained (json_dumps r 2) = true) ->
  (forall v, contained (py_repr v) = true) ->
  (run (prog :: command :: rest)).1 = Ret tt /\
  status (prog :: command :: rest) = 0%Z /\
  length (output (prog :: command :: rest)) = 1%nat.
Proof.
  intros Hcwd Hcons Hexec Hdumps Hrepr. unfold status, output.
  destruct (run_cases (prog :: command :: rest))
    as [(text & cs & ->)|[[Hlen _]|(p0 & c0 & r0 & e & cs & _ & He & Ho & _)]].
  - done.
  - simpl in Hlen. lia.
  - exfalso.
    destruct Ho
      as [H|[(cwd & _ & H)|[(cwd & ex & _ & Hx & H)|[[r H]|[v H]]]]].
    + rewrite H in Hcwd. simpl in Hcwd. congruence.
    + specialize (Hcons cwd). rewrite H in Hcons. simpl in Hcons. congruence.
    + pose proof (Hexec cwd ex (xavier_command c0)
        (payload (prog :: command :: rest)) Hx) as Hne.
      rewrite H in Hne. simpl in Hne. congruence.
    + specialize (Hdumps r). rewrite H in Hdumps. simpl in Hdumps. congruence.
    + specialize (Hrepr v). rewrite H in Hrepr. simpl in Hrepr. congruence.
Qed.

Lemma X3_exit_status_zero_witness :
  @status Scenario.runtime
    (Scenario.returning (VDict [("success", VBool false); ("error", VStr "no backlog")]))
    [Scenario.prog; "show-backlog"] = 0%Z /\
  length (@output Scenario.runtime
    (Scenario.returning (VDict [("success", VBool false); ("error", VStr "no backlog")]))
    [Scenario.prog; "show-backlog"]) = 1%nat.
Proof.
  refine (proj2
    (@X3_exit_status_zero Scenario.runtime
       (Scenario.returning
          (VDict [("success", VBool false); ("error", VStr "no backlog")]))
       Scenario.prog "show-backlog" [] eq_refl (fun _ => eq_refl) _ _ _)).
  - intros cwd x c a Hx. injection Hx as <-. reflexivity.
  - intros r. destruct r as [|[]|n| | |[]|[]]; try reflexivity.
    unfold json_dumps, Scenario.runtime, Scenario.dumps, Scenario.int_text.
    destruct (4300 <? _)%nat; reflexivity.
  - intros v. destruct v as [| |n| | | |]; try reflexivity.
    unfold py_repr, Scenario.runtime, Scenario.repr, Scenario.int_text.
    destruct (4300 <? _)%nat; reflexivity.
Defined.

(** ** Further properties of the alias resolution *)

Lemma str_remove_idem (c : ascii) (s : string) :
  str_remove c (str_remove c s) = str_remove c s.
Proof. apply str_remove_absent, str_remove_gone. Qed.

Lemma command_names_slash_free (name : string) :
  name ∈ command_names -> str_mem "/" name = false.
Proof.
  unfold command_names. rewrite !elem_of_cons, elem_of_nil.
  intros H. repeat (destruct H as [->|H]; [reflexivity|]). done.
Qed.

Lemma command_map_entry (name : string) :
  name ∈ command_names -> command_map !! name = Some ("/" +:+ name).
Proof.
  intros [v Hv]%command_map_keys.
  by rewrite Hv, (command_map_value _ _ Hv).
Qed.

Lemma xavier_command_of_name (command : string) :
  str_remove "/" command ∈ command_names ->
  xavier_command command = "/" +:+ str_remove "/" command.
Proof.
  intros H. apply xavier_command_recognized. by apply command_map_entry.
Qed.

(** X4: slashes do not matter for a recognized command: when the command
    name without its slashes, wherever they are, is one of the eleven
    names, the command resolves to that name behind a single slash. *)
Theorem X4_recognized_whatever_the_slashes (command : string) :
  str_remove "/" command ∈ command_names ->
  xavier_command command = "/" +:+ str_remove "/" command.
Proof. apply xavier_command_of_name. Qed.

Lemma X4_recognized_whatever_the_slashes_witness :
  str_remove "/" "//create/-story/" ∈ command_names /\
  xavier_command "//create/-story/" = "/create-story".
Proof.
  assert (H : str_remove "/" "//create/-story/" ∈ command_names).
  { apply (bool_decide_unpack _). by vm_compute. }
  split; [exact H|].
  exact (X4_recognized_whatever_the_slashes "//create/-story/" H).
Defined.

(** X5: the resolved command is an entry of the alias table exactly when
    the command name without its slashes is a key of the table: an
    unrecognized name never resolves to a recognized command. *)
Theorem X5_table_entry_iff_recognized (command : string) :
  xavier_command command ∈ command_items.*2 <->
  str_remove "/" command ∈ command_names.
Proof.
  split.
  - intros Hin.
    destruct (command_map !! str_remove "/" command) as [v|] eqn:E.
    { apply command_map_keys. by eexists. }
    rewrite (xavier_command_unrecognized _ E) in Hin.
    apply list_elem_of_fmap in Hin as [[k v] [Hv Hkv]]. simpl in Hv.
    apply command_map_lookup in Hkv.
    pose proof (command_map_value _ _ Hkv) as Hval.
    rewrite <- Hv in Hval. simpl in Hval. injection Hval as Hck.
    change (command = k) in Hck. subst k.
    assert (Hk : command ∈ command_names).
    { apply command_map_keys. by eexists. }
    rewrite (str_remove_absent _ _ (command_names_slash_free _ Hk)) in E.
    congruence.
  - intros H. rewrite (xavier_command_of_name command H).
    apply command_map_entry, command_map_lookup in H.
    by apply (list_elem_of_fmap_2 snd) in H.
Qed.

(** X6: on a recognized command the resolution is idempotent: resolving the
    slash command it produced gives the same slash command again. *)
Theorem X6_resolution_idempotent_on_recognized (command : string) :
  str_remove "/" command ∈ command_names ->
  xavier_command (xavier_command command) = xavier_command command.
Proof.
  intros H. rewrite (xavier_command_of_name command H).
  apply xavier_command_recognized.
  change ("/" +:+ str_remove "/" command)
    with (String "/" (str_remove "/" command)).
  rewrite str_remove_leading, str_remove_idem.
  by apply command_map_entry.
Qed.

Lemma X6_resolution_idempotent_on_recognized_witness :
  str_remove "/" "/show-backlog" ∈ command_names /\
  xavier_command (xavier_command "/show-backlog") = xavier_command "/show-backlog".
Proof.
  assert (H : str_remove "/" "/show-backlog" ∈ command_names).
  { apply (bool_decide_unpack _). by vm_compute. }
  split; [exact H|].
  exact (X6_resolution_idempotent_on_recognized "/show-backlog" H).
Defined.

(** X7: on an unrecognized command the resolution is not idempotent: every
    pass puts one more slash in front, so resolving twice gives the raw
    name behind two slashes. *)
Theorem X7_resolution_adds_a_slash_each_pass (command : string) :
  command_map !! str_remove "/" command = None ->
  xavier_command command = "/" +:+ command /\
  xavier_command (xavier_command command) = "//" +:+ command /\
  xavier_command (xavier_command command) <> xavier_command command.
Proof.
  intros H.
  assert (H1 : xavier_command command = "/" +:+ command)
    by by apply xavier_command_unrecognized.
  assert (H2 : xavier_command ("/" +:+ command) = "//" +:+ command)
    by by apply xavier_command_leading_slash.
  rewrite H1, H2. split; [done|]. split; [done|].
  change ("//" +:+ command) with (String "/" (String "/" command)).
  change ("/" +:+ command) with (String "/" command).
  intros Heq. injection Heq as Heq.
  clear -Heq. induction command as [|a s IH]; [discriminate|].
  injection Heq as Ha Heq. subst a. by apply IH.
Qed.

Lemma X7_resolution_adds_a_slash_each_pass_witness :
  command_map !! str_remove "/" "deploy" = None /\
  xavier_command (xavier_command "deploy") = "//deploy".
Proof.
  assert (H : command_map !! str_remove "/" "deploy" = None) by by vm_compute.
  split; [exact H|].
  exact (proj1 (proj2 (X7_resolution_adds_a_slash_each_pass "deploy" H))).
Defined.

(** ** Further properties of the calls and of the payload *)

Lemma trace_shape {RT : Runtime} {XC : Collaborator} (argv : list string) :
  trace argv = [] \/
  exists cwd, os_getcwd = Ret cwd /\
    (trace argv = [Construct cwd] \/
     exists command, argv !! 1%nat = Some command /\
       trace argv =
       [Construct cwd; Execute (xavier_command command) (payload argv)]).
Proof.
  destruct argv as [|prog [|command rest]].
  - left. unfold trace. by rewrite run_usage by (simpl; lia).
  - left. unfold trace. by rewrite run_usage by (simpl; lia).
  - rewrite trace_command.
    destruct os_getcwd as [cwd|e]; [|by left].
    right. exists cwd. split; [done|].
    destruct (XavierCommands cwd) as [x|e]; [|by left].
    right. by exists command.
Qed.

(** X8: whatever the command line, the collaborator is constructed at most
    once, with the working directory [os.getcwd()] returned, and [execute]
    is called at most once, after the constructor, with the resolved command
    and the parsed payload. *)
Theorem X8_calls_in_order {RT : Runtime} {XC : Collaborator}
    (argv : list string) :
  trace argv = [] \/
  exists cwd, os_getcwd = Ret cwd /\
    (trace argv = [Construct cwd] \/
     exists command, argv !! 1%nat = Some command /\
       trace argv =
       [Construct cwd; Execute (xavier_command command) (payload argv)]).
Proof. apply trace_shape. Qed.

(** X9: argument parsing never raises and touches neither the output nor the
    collaborator, whatever [json.loads] raises, a [SystemExit] included; the
    value of [args] is the empty mapping or, when there are extra arguments,
    what [json.loads] returned for their joined text. *)
Theorem X9_parsing_never_raises {RT : Runtime} (argv : list string) (w : world) :
  parse_args argv w = (Ret (payload argv), w) /\
  (payload argv = VDict [] \/
   ((2 < length argv)%nat /\
    json_loads (String.concat " " (drop 2 argv)) = Ret (payload argv))).
Proof.
  split; [apply parse_args_total|].
  unfold payload, parse_args, try_except, lift, ret.
  destruct (Nat.ltb_spec 2 (length argv)) as [Hlen|Hlen]; [|by left].
  destruct (json_loads _) as [v|e] eqn:E; [|by left].
  by right.
Qed.

(** X10: the payload depends only on the text the extra arguments make once
    joined by single spaces: how the shell split that text into arguments,
    the program name and the command name play no part. *)
Theorem X10_payload_depends_on_joined_text {RT : Runtime}
    (prog1 command1 prog2 command2 : string) (rest1 rest2 : list string) :
  rest1 <> [] ->
  rest2 <> [] ->
  String.concat " " rest1 = String.concat " " rest2 ->
  payload (prog1 :: command1 :: rest1) = payload (prog2 :: command2 :: rest2).
Proof.
  intros H1 H2 Heq.
  destruct (json_loads (String.concat " " rest1)) as [v|e] eqn:E.
  - rewrite (payload_decoded prog1 command1 rest1 v H1 E).
    rewrite Heq in E.
    by rewrite (payload_decoded prog2 command2 rest2 v H2 E).
  - rewrite (payload_malformed prog1 command1 rest1 e E).
    rewrite Heq in E.
    by rewrite (payload_malformed prog2 command2 rest2 e E).
Qed.

Lemma X10_payload_depends_on_joined_text_witness :
  String.concat " " ["[1,"; "2]"] = String.concat " " ["[1, 2]"] /\
  @payload Scenario.runtime [Scenario.prog; "create-task"; "[1,"; "2]"]
  = @payload Scenario.runtime ["bridge"; "/create-bug"; "[1, 2]"].
Proof.
  split; [reflexivity|].
  apply (@X10_payload_depends_on_joined_text Scenario.runtime);
    [discriminate|discriminate|reflexivity].
Defined.

(** ** Further properties of the report and of the failure paths *)

(** X11: when [os.getcwd()] raises an [Exception], the collaborator is never
    constructed: the script prints the error prefix followed by the
    exception's message and exits with status 0. *)
Theorem X11_lost_working_directory {RT : Runtime} {XC : Collaborator}
    prog command rest (e : exn) :
  os_getcwd = Raise e ->
  is_Exception e = true ->
  output (prog :: command :: rest) = [error_prefix +:+ exn_str e] /\
  trace (prog :: command :: rest) = [] /\
  status (prog :: command :: rest) = 0%Z.
Proof.
  intros Hcwd He. unfold output, trace, status. rewrite run_dispatch.
  unfold dispatch, try_except, bind, lift. rewrite Hcwd. simpl.
  by rewrite He.
Qed.

Lemma X11_lost_working_directory_witness :
  @os_getcwd Faulty.lost_runtime = Raise Faulty.cwd_error /\
  is_Exception Faulty.cwd_error = true /\
  @output Faulty.lost_runtime (Scenario.returning VNone)
    [Scenario.prog; "xavier-help"]
  = ["❌ Error: [Errno 2] No such file or directory"] /\
  @trace Faulty.lost_runtime (Scenario.returning VNone)
    [Scenario.prog; "xavier-help"] = [] /\
  @status Faulty.lost_runtime (Scenario.returning VNone)
    [Scenario.prog; "xavier-help"] = 0%Z.
Proof.
  split; [reflexivity|]. split; [reflexivity|].
  exact (@X11_lost_working_directory Faulty.lost_runtime
           (Scenario.returning VNone) Scenario.prog "xavier-help" []
           Faulty.cwd_error eq_refl eq_refl).
Defined.

(** X12: when [execute] returns something that is not a mapping, the call
    [result.get] fails inside the [try] block: the script prints the error
    prefix followed by the [AttributeError] message that names the type of
    the value, and exits with status 0. *)
Theorem X12_result_not_a_mapping {RT : Runtime} {XC : Collaborator}
    prog command rest (cwd : string) (x : executor) (result : value) :
  os_getcwd = Ret cwd ->
  XavierCommands cwd = Ret x ->
  execute x (xavier_command command) (payload (prog :: command :: rest))
    = Ret result ->
  is_dict result = false ->
  output (prog :: command :: rest) =
    ["❌ Error: '" +:+ type_name result +:+ "' object has no attribute 'get'"] /\
  status (prog :: command :: rest) = 0%Z.
Proof.
  intros Hcwd Hx Hr Hnd. unfold output, status.
  rewrite (run_returns _ _ _ cwd x result) by done.
  unfold try_except. by rewrite (report_not_a_dict result _ Hnd).
Qed.

Lemma X12_result_not_a_mapping_witness :
  is_dict (VList [VInt 1]) = false /\
  @output Scenario.runtime (Scenario.returning (VList [VInt 1]))
    [Scenario.prog; "show-backlog"]
  = ["❌ Error: 'list' object has no attribute 'get'"].
Proof.
  split; [reflexivity|].
  exact (proj1
    (@X12_result_not_a_mapping Scenario.runtime
       (Scenario.returning (VList [VInt 1])) Scenario.prog "show-backlog" []
       "/work" (Executor (fun _ _ => Ret _)) (VList [VInt 1])
       eq_refl eq_refl eq_refl eq_refl)).
Defined.

(** X13: when the result is a success with a [result] field that
    [json.dumps] refuses with an [Exception], the script prints the error
    prefix followed by that exception's message, and nothing of the
    result; the exit status is 0. *)
Theorem X13_unrenderable_result {RT : Runtime} {XC : Collaborator}
    prog command rest (cwd : string) (x : executor)
    (d : list (string * value)) (flag r : value) (e : exn) :
  os_getcwd = Ret cwd ->
  XavierCommands cwd = Ret x ->
  execute x (xavier_command command) (payload (prog :: command :: rest))
    = Ret (VDict d) ->
  dict_lookup d "success" = Some flag ->
  truthy flag = true ->
  dict_lookup d "result" = Some r ->
  json_dumps r 2 = Raise e ->
  is_Exception e = true ->
  output (prog :: command :: rest) = [error_prefix +:+ exn_str e] /\
  status (prog :: command :: rest) = 0%Z.
Proof.
  intros Hcwd Hx Hd Hflag Htrue Hr He Hexc. unfold output, status.
  rewrite (run_returns _ _ _ cwd x (VDict d)) by done.
  unfold try_except. rewrite (report_unrenderable d flag r e) by done.
  by rewrite Hexc.
Qed.

Lemma X13_unrenderable_result_witness :
  @json_dumps Faulty.refusing_runtime (VInt 8) 2 = Raise Faulty.dumps_error /\
  is_Exception Faulty.dumps_error = true /\
  @output Faulty.refusing_runtime
    (Scenario.returning (VDict [("success", VBool true); ("result", VInt 8)]))
    [Scenario.prog; "estimate-story"]
  = ["❌ Error: Object of type set is not JSON serializable"].
Proof.
  split; [reflexivity|]. split; [reflexivity|].
  exact (proj1
    (@X13_unrenderable_result Faulty.refusing_runtime
       (Scenario.returning (VDict [("success", VBool true); ("result", VInt 8)]))
       Scenario.prog "estimate-story" [] "/work" (Executor (fun _ _ => Ret _))
       [("success", VBool true); ("result", VInt 8)] (VBool true) (VInt 8)
       Faulty.dumps_error
       eq_refl eq_refl eq_refl eq_refl eq_refl eq_refl eq_refl eq_refl)).
Defined.

(** X14: when the result is a success without a [result] field, the script
    prints the fixed success message, whatever else the mapping holds, and
    exits with status 0. *)
Theorem X14_success_without_result {RT : Runtime} {XC : Collaborator}
    prog command rest (cwd : string) (x : executor)
    (d : list (string * value)) (flag : value) :
  os_getcwd = Ret cwd ->
  XavierCommands cwd = Ret x ->
  execute x (xavier_command command) (payload (prog :: command :: rest))
    = Ret (VDict d) ->
  dict_lookup d "success" = Some flag ->
  truthy flag = true ->
  dict_lookup d "result" = None ->
  output (prog :: command :: rest) = ["✅ Command executed successfully"] /\
  status (prog :: command :: rest) = 0%Z.
Proof.
  intros Hcwd Hx Hd Hflag Htrue Hr. unfold output, status.
  rewrite (run_returns _ _ _ cwd x (VDict d)) by done.
  unfold try_except. by rewrite (report_success d flag) by done.
Qed.

Lemma X14_success_without_result_witness :
  dict_lookup [("success", VInt 1); ("error", VStr "ignored")] "success"
    = Some (VInt 1) /\
  truthy (VInt 1) = true /\
  dict_lookup [("success", VInt 1); ("error", VStr "ignored")] "result" = None /\
  @output Scenario.runtime
    (Scenario.returning (VDict [("success", VInt 1); ("error", VStr "ignored")]))
    [Scenario.prog; "start-sprint"]
  = ["✅ Command executed successfully"].
Proof.
  repeat (split; [reflexivity|]).
  exact (proj1
    (@X14_success_without_result Scenario.runtime
       (Scenario.returning (VDict [("success", VInt 1); ("error", VStr "ignored")]))
       Scenario.prog "start-sprint" [] "/work" (Executor (fun _ _ => Ret _))
       [("success", VInt 1); ("error", VStr "ignored")] (VInt 1)
       eq_refl eq_refl eq_refl eq_refl eq_refl eq_refl)).
Defined.

(** X15: a [SystemExit] with an int code raised by the collaborator's
    constructor or by its [execute] method is not caught by
    [except Exception]: [main] ends with it and the script prints nothing.
    The process exits with the low eight bits of the code when the code fits
    a C long, and with 255 when it does not. *)
Theorem X15_system_exit_is_not_caught {RT : Runtime} {XC : Collaborator}
    prog command rest (cwd : string) (code : Z) :
  os_getcwd = Ret cwd ->
  (XavierCommands cwd = Raise (SystemExit code) \/
   exists x, XavierCommands cwd = Ret x /\
     execute x (xavier_command command) (payload (prog :: command :: rest))
       = Raise (SystemExit code)) ->
  (run (prog :: command :: rest)).1 = Raise (SystemExit code) /\
  output (prog :: command :: rest) = [] /\
  ((- 2 ^ 63 <= code < 2 ^ 63)%Z ->
     status (prog :: command :: rest) = Z.land code 255) /\
  ((code < - 2 ^ 63 \/ 2 ^ 63 <= code)%Z ->
     status (prog :: command :: rest) = 255%Z).
Proof.
  intros Hcwd Hraise. unfold output, status. rewrite run_dispatch.
  assert (Hrun : dispatch (xavier_command command)
                   (payload (prog :: command :: rest)) world0 =
                 (Raise (SystemExit code),
                  World [] (calls (dispatch (xavier_command command)
                     (payload (prog :: command :: rest)) world0).2))).
  { destruct Hraise as [Hx|(x & Hx & Hr)].
    - unfold dispatch, try_except, bind, lift, record.
      rewrite Hcwd. simpl. by rewrite Hx.
    - by rewrite (dispatch_execute_exits _ _ _ cwd x code). }
  rewrite Hrun. simpl. unfold exit_status, termination_of, fits_c_long.
  split; [done|]. split; [done|]. split.
  - intros [Hlo Hhi].
    destruct (Z.leb_spec (- 2 ^ 63) code); [|lia].
    destruct (Z.ltb_spec code (2 ^ 63)); [done|lia].
  - intros Hout.
    destruct (Z.leb_spec (- 2 ^ 63) code); [|done].
    destruct (Z.ltb_spec code (2 ^ 63)); [lia|done].
Qed.

Lemma X15_system_exit_is_not_caught_witness :
  @os_getcwd Scenario.runtime = Ret "/work" /\
  @output Scenario.runtime (Scenario.raising (SystemExit 259))
    [Scenario.prog; "create-sprint"] = [] /\
  (- 2 ^ 63 <= 259 < 2 ^ 63)%Z /\
  @status Scenario.runtime (Scenario.raising (SystemExit 259))
    [Scenario.prog; "create-sprint"] = 3%Z.
Proof.
  assert (Hfit : (- 2 ^ 63 <= 259 < 2 ^ 63)%Z) by lia.
  split; [reflexivity|].
  destruct (@X15_system_exit_is_not_caught Scenario.runtime
       (Scenario.raising (SystemExit 259)) Scenario.prog "create-sprint" []
       "/work" 259 eq_refl
       (or_intror (ex_intro _ (Executor (fun _ _ => Raise _))
                     (conj eq_refl eq_refl))))
    as (_ & Hout & Hin & _).
  split; [exact Hout|]. split; [exact Hfit|]. exact (Hin Hfit).
Defined.

(** A code beyond the C long: the process exits with 255. *)
Example system_exit_overflow :
  @status Scenario.runtime (Scenario.raising (SystemExit (2 ^ 64 + 3)))
    [Scenario.prog; "create-sprint"] = 255%Z.
Proof. reflexivity. Qed.

(** ** The module as a whole *)


(** X17: a call on the collaborator happens only when the import succeeded,
    the module runs as the main program, the command line holds a command
    name and the working directory could be read. *)
Theorem X17_calls_need_import_main_and_command {RT : Runtime}
    (imported : import_outcome) (name : string) (argv : list string) :
  calls (script imported name argv world0).2 <> [] ->
  exists XC cwd,
    imported = Imported XC /\ name = "__main__" /\
    (2 <= length argv)%nat /\ os_getcwd = Ret cwd /\
    head (calls (script imported name argv world0).2) = Some (Construct cwd).
Proof.
  destruct imported as [XC|msg|e]; [|done|done].
  unfold script. destruct (String.eqb_spec name "__main__") as [->|Hne]; [|done].
  intros Hcalls.
  pose proof (trace_shape argv) as Hs.
  pose proof (run_usage argv) as Hu.
  unfold trace, run in Hs, Hu.
  destruct Hs as [H|(cwd & Hcwd & H)]; [done|].
  exists XC, cwd. repeat split; try done.
  - destruct (Nat.lt_ge_cases (length argv) 2) as [Hlt|Hge]; [|done].
    exfalso. apply Hcalls. by rewrite (Hu Hlt).
  - by destruct H as [->|(command & _ & ->)].
Qed.

Lemma X17_calls_need_import_main_and_command_witness :
  calls (@script Scenario.runtime (Imported (Scenario.returning VNone))
           "__main__" [Scenario.prog; "xavier-help"] world0).2 <> [] /\
  exists XC cwd,
    Imported (Scenario.returning VNone) = Imported XC /\
    "__main__" = "__main__" /\
    (2 <= length [Scenario.prog; "xavier-help"])%nat /\
    @os_getcwd Scenario.runtime = Ret cwd /\
    head (calls (@script Scenario.runtime (Imported (Scenario.returning VNone))
                   "__main__" [Scenario.prog; "xavier-help"] world0).2)
    = Some (Construct cwd).
Proof.
  assert (H : calls (@script Scenario.runtime
                       (Imported (Scenario.returning VNone))
                       "__main__" [Scenario.prog; "xavier-help"] world0).2 <> [])
    by discriminate.
  split; [exact H|].
  exact (@X17_calls_need_import_main_and_command Scenario.runtime
           (Imported (Scenario.returning VNone)) "__main__"
           [Scenario.prog; "xavier-help"] H).
Defined.
